(** * erosion: the grid layout and pagination engine of [eroPDF]

    A shallow embedding of [src/erosion/pdf/__init__.py].

    - A document is what [json.loads] returns: a [value].  JSON objects are
      Python dicts and are modelled as [gmap string value]; JSON arrays are
      Python lists.
    - Numbers are integers ([Z]).  [bool] is a subclass of [int] in Python,
      so [True] and [False] count as 1 and 0 in arithmetic.  JSON floats are
      not part of the embedding; reportlab's page sizes are integer-valued
      (LETTER is 612 x 792 points) and are taken as integers.
    - [self] is the record [eroPDF].  The reportlab canvas and its form are
      external: the calls made on them are recorded, in order, as a list of
      [event]s, and are assumed not to raise.
    - A method is a function [eroPDF -> result A * eroPDF]: an exception
      leaves the mutations made before it in place, as in Python. *)

From Stdlib Require Import ZArith String List Lia Sorted.
From stdpp Require Import base option list gmap strings pretty.

Open Scope string_scope.
Open Scope Z_scope.
Open Scope list_scope.

(** ** JSON values *)

#[warnings="-register-all"]
Inductive value : Type :=
  | JNull
  | JBool (b : bool)
  | JInt (n : Z)
  | JStr (s : string)
  | JArr (l : list value)
  | JObj (d : gmap string value).

(** ** Exceptions and results *)

Inductive exn : Type :=
  | AttributeError
  | TypeError
  | KeyError (key : string)
  | ZeroDivisionError
  | NotImplementedError (field_type : value).

Inductive result (A : Type) : Type :=
  | Ok (a : A)
  | Raise (e : exn).

Arguments Ok {A} a.
Arguments Raise {A} e.

(** ** The operations of Python the source uses, on JSON values *)

Module Py.

(** [d.get(k, dflt)] on a dict. *)
Definition dict_get (d : gmap string value) (k : string) (dflt : value) : value :=
  default dflt (d !! k).

(** [v.get(k, dflt)]: only a dict has the method. *)
Definition get (v : value) (k : string) (dflt : value) : result value :=
  match v with
  | JObj d => Ok (dict_get d k dflt)
  | _ => Raise AttributeError
  end.

(** [v[k]] with a string subscript. *)
Definition getitem (v : value) (k : string) : result value :=
  match v with
  | JObj d =>
      match d !! k with
      | Some x => Ok x
      | None => Raise (KeyError k)
      end
  | _ => Raise TypeError
  end.

Definition is_str (k : string) (v : value) : bool :=
  match v with
  | JStr s => String.eqb s k
  | _ => false
  end.

Fixpoint is_substring (k s : string) : bool :=
  String.prefix k s ||
  match s with
  | EmptyString => false
  | String _ s' => is_substring k s'
  end.

(** [k in v]: key of a dict, element of a list, substring of a string. *)
Definition contains (k : string) (v : value) : result bool :=
  match v with
  | JObj d => Ok (bool_decide (is_Some (d !! k)))
  | JArr l => Ok (existsb (is_str k) l)
  | JStr s => Ok (is_substring k s)
  | _ => Raise TypeError
  end.

Fixpoint chars (s : string) : list value :=
  match s with
  | EmptyString => []
  | String c s' => JStr (String c EmptyString) :: chars s'
  end.

(** The elements a [for] loop visits.  A dict yields its keys; their
    insertion order is not recorded by [gmap], the order of [map_to_list]
    stands for it. *)
Definition iter (v : value) : result (list value) :=
  match v with
  | JArr l => Ok l
  | JStr s => Ok (chars s)
  | JObj d => Ok ((fun kv => JStr (fst kv)) <$> map_to_list d)
  | _ => Raise TypeError
  end.

(** The integer a value stands for in arithmetic. *)
Definition as_int (v : value) : option Z :=
  match v with
  | JInt n => Some n
  | JBool b => Some (Z.b2z b)
  | _ => None
  end.

(** Arithmetic is modelled on integers.  An operand that is not an integer
    raises [TypeError]; Python does the same for [None] and dicts, and
    always for [-], [//] and a comparison with an integer.  Its overloads
    of [*] and [+] for strings and lists (repetition, concatenation) and
    of [%] for strings (formatting) are not modelled. *)
Definition arith (op : Z -> Z -> Z) (a b : value) : result value :=
  match as_int a, as_int b with
  | Some x, Some y => Ok (JInt (op x y))
  | _, _ => Raise TypeError
  end.

Definition add := arith Z.add.
Definition sub := arith Z.sub.
Definition mul := arith Z.mul.

(** [a // b] and [a % b]: floor division, the remainder has the sign of
    the divisor, as [Z.div] and [Z.modulo]; a zero divisor raises. *)
Definition floordiv (a b : value) : result value :=
  match as_int a, as_int b with
  | Some x, Some y => if Z.eqb y 0 then Raise ZeroDivisionError else Ok (JInt (x / y))
  | _, _ => Raise TypeError
  end.

Definition mod_ (a b : value) : result value :=
  match as_int a, as_int b with
  | Some x, Some y => if Z.eqb y 0 then Raise ZeroDivisionError else Ok (JInt (x mod y))
  | _, _ => Raise TypeError
  end.

Definition ge (a b : value) : result bool :=
  match as_int a, as_int b with
  | Some x, Some y => Ok (Z.leb y x)
  | _, _ => Raise TypeError
  end.

End Py.

(** [result] is a monad; stdpp's notation [x ← r; k] sequences it. *)
#[export] Instance result_ret : MRet result := fun A a => Ok a.
#[export] Instance result_bind : MBind result := fun A B k r =>
  match r with
  | Ok a => k a
  | Raise e => Raise e
  end.

(** ** The canvas *)

(** The calls [eroPDF] makes on the reportlab canvas and on its form. *)
Inductive event : Type :=
  | ShowPage
  | Save
  | SetFont (name : string) (size : value)
  | DrawRightString (x y : Z) (text : string)
  | DrawString (x y text : value)
  | TextField (name tooltip x y width height val : value)
  | Checkbox (name tooltip x y size checked : value)
  | Radio (name tooltip val selected x y size : value)
  | SetLineWidth (width : value)
  | Line (x1 y1 x2 y2 : value).

(** ** The object *)

(** The attributes of [self] the layout engine reads and writes.  [canvas]
    is [None] until [save] creates it; [form] is the canvas's own form and
    its calls are recorded on the same trace.  The attributes that only
    locate the template file are left out. *)
Record eroPDF : Type := {
  page_size : Z * Z;
  rendered_template : value;
  layout : value;
  rows_per_page : value;
  page_number : Z;
  canvas : option (list event)
}.

(** [__init__] *)
Definition new (size : Z * Z) : eroPDF :=
  {| page_size := size; rendered_template := JNull; layout := JObj ∅;
     rows_per_page := JNull; page_number := 0; canvas := None |}.

Definition with_rendered_template (v : value) (st : eroPDF) : eroPDF :=
  {| page_size := page_size st; rendered_template := v; layout := layout st;
     rows_per_page := rows_per_page st; page_number := page_number st;
     canvas := canvas st |}.

Definition with_layout (v : value) (st : eroPDF) : eroPDF :=
  {| page_size := page_size st; rendered_template := rendered_template st;
     layout := v; rows_per_page := rows_per_page st;
     page_number := page_number st; canvas := canvas st |}.

Definition with_rows_per_page (v : value) (st : eroPDF) : eroPDF :=
  {| page_size := page_size st; rendered_template := rendered_template st;
     layout := layout st; rows_per_page := v; page_number := page_number st;
     canvas := canvas st |}.

Definition with_page_number (n : Z) (st : eroPDF) : eroPDF :=
  {| page_size := page_size st; rendered_template := rendered_template st;
     layout := layout st; rows_per_page := rows_per_page st; page_number := n;
     canvas := canvas st |}.

Definition with_canvas (c : option (list event)) (st : eroPDF) : eroPDF :=
  {| page_size := page_size st; rendered_template := rendered_template st;
     layout := layout st; rows_per_page := rows_per_page st;
     page_number := page_number st; canvas := c |}.

(** ** Methods: state and exceptions *)

Definition M (A : Type) : Type := eroPDF → result A * eroPDF.

#[export] Instance M_ret : MRet M := fun A a st => (Ok a, st).
#[export] Instance M_bind : MBind M := fun A B k m st =>
  match m st with
  | (Ok a, st') => k a st'
  | (Raise e, st') => (Raise e, st')
  end.

(** A computation that reads [self] and may raise. *)
Definition reading {A} (f : eroPDF → result A) : M A := fun st => (f st, st).

(** A computation that does not touch [self]. *)
Definition lift {A} (r : result A) : M A := reading (fun _ => r).

Definition update (f : eroPDF → eroPDF) : M unit := fun st => (Ok tt, f st).

(** A call on [self.canvas] (or [self.form]). *)
Definition emit (ev : event) : M unit := fun st =>
  match canvas st with
  | Some tr => (Ok tt, with_canvas (Some (tr ++ [ev])) st)
  | None => (Raise AttributeError, st)
  end.

Fixpoint for_each {A} (body : A → M unit) (l : list A) : M unit :=
  match l with
  | [] => mret tt
  | a :: l' => body a;; for_each body l'
  end.

(** [render], after the template has been evaluated and parsed: [doc] is
    the value of [json.loads(rendered_json)]. *)
Definition render (doc : value) : M unit :=
  update (with_rendered_template doc);;
  lay ← lift (Py.get doc "layout" (JObj ∅));
  update (with_layout lay);;
  page_height ← reading (fun st => Ok (snd (page_size st)));
  margin_y ← lift (Py.get lay "margin_y" (JInt 50));
  row_height ← lift (Py.get lay "row_height" (JInt 30));
  usable_height ← lift (twice ← Py.mul (JInt 2) margin_y; Py.sub (JInt page_height) twice);
  rpp ← lift (Py.floordiv usable_height row_height);
  update (with_rows_per_page rpp).

Definition needs_page_break (st : eroPDF) (row : value) : result bool :=
  bound ← Py.mul (JInt (page_number st + 1)) (rows_per_page st);
  Py.ge row bound.

(** The grid branch of [_resolve_coords]. *)
Definition grid_coords (st : eroPDF) (field : value) : result (value * value * value) :=
  col ← Py.get field "col" (JInt 0);
  row ← Py.get field "row" (JInt 0);
  col_span ← Py.get field "col_span" (JInt 1);
  margin_x ← Py.get (layout st) "margin_x" (JInt 50);
  margin_y ← Py.get (layout st) "margin_y" (JInt 50);
  row_height ← Py.get (layout st) "row_height" (JInt 30);
  col_width ← Py.get (layout st) "column_width" (JInt 120);
  local_row ← Py.mod_ row (rows_per_page st);
  x ← (off ← Py.mul col col_width; Py.add margin_x off);
  y ← (top ← Py.sub (JInt (snd (page_size st))) margin_y;
       down ← Py.mul local_row row_height;
       Py.sub top down);
  width ← Py.mul col_span col_width;
  Ok (x, y, width).

Definition resolve_coords (st : eroPDF) (field : value) : result (value * value * value) :=
  has_x ← Py.contains "x" field;
  has_y ← (if has_x : bool then Py.contains "y" field else Ok false);
  if has_y : bool then
    x ← Py.getitem field "x";
    y ← Py.getitem field "y";
    width ← Py.get field "width" (JInt 100);
    Ok (x, y, width)
  else grid_coords st field.

Definition draw_debug_page_number : M unit :=
  emit (SetFont "Helvetica" (JInt 8));;
  label ← reading (fun st => Ok (fst (page_size st) - 40, "Page " +:+ pretty (page_number st + 1)));
  emit (DrawRightString (fst label) 20 (snd label)).

Definition draw_text (field : value) : M unit :=
  c ← reading (fun st => resolve_coords st field);
  font_size ← lift (Py.get field "font_size" (JInt 10));
  text ← lift (Py.get field "text" (JStr EmptyString));
  emit (SetFont "Helvetica" font_size);;
  emit (DrawString c.1.1 c.1.2 text).

Definition draw_fillable (field : value) : M unit :=
  c ← reading (fun st => resolve_coords st field);
  height ← lift (Py.get field "height" (JInt 20));
  name ← lift (Py.getitem field "name");
  tooltip ← lift (Py.get field "label" (JStr EmptyString));
  val ← lift (Py.get field "value" (JStr EmptyString));
  emit (TextField name tooltip c.1.1 c.1.2 c.2 height val).

Definition draw_checkbox (field : value) : M unit :=
  c ← reading (fun st => resolve_coords st field);
  size ← lift (Py.get field "size" (JInt 12));
  name ← lift (Py.getitem field "name");
  tooltip ← lift (Py.get field "label" (JStr EmptyString));
  checked ← lift (Py.get field "checked" (JBool false));
  emit (Checkbox name tooltip c.1.1 c.1.2 size checked).

(** The body of the loop of [_draw_radio]. *)
Definition draw_radio_option (field option : value) : M unit :=
  c ← reading (fun st => resolve_coords st option);
  size ← lift (Py.get option "size" (JInt 12));
  name ← lift (Py.getitem field "name");
  tooltip ← lift (Py.get field "label" (JStr EmptyString));
  val ← lift (Py.getitem option "value");
  selected ← lift (Py.get option "selected" (JBool false));
  emit (Radio name tooltip val selected c.1.1 c.1.2 size).

Definition draw_radio (field : value) : M unit :=
  options ← lift (opts ← Py.get field "options" (JArr []); Py.iter opts);
  for_each (draw_radio_option field) options.

Definition draw_line (field : value) : M unit :=
  col1 ← lift (Py.getitem field "col1");
  row1 ← lift (Py.getitem field "row1");
  c1 ← reading (fun st => resolve_coords st (JObj (<["col" := col1]> (<["row" := row1]> ∅))));
  col2 ← lift (Py.getitem field "col2");
  row2 ← lift (Py.getitem field "row2");
  c2 ← reading (fun st => resolve_coords st (JObj (<["col" := col2]> (<["row" := row2]> ∅))));
  width ← lift (Py.get field "width" (JInt 1));
  emit (SetLineWidth width);;
  emit (Line c1.1.1 c1.1.2 c2.1.1 c2.1.2).

Definition draw_field (field : value) : M unit :=
  field_type ← lift (Py.get field "type" JNull);
  if Py.is_str "text" field_type then draw_text field
  else if Py.is_str "fillable" field_type then draw_fillable field
  else if Py.is_str "checkbox" field_type then draw_checkbox field
  else if Py.is_str "radio" field_type then draw_radio field
  else if Py.is_str "line" field_type then draw_line field
  else lift (Raise (NotImplementedError field_type)).

(** The first half of the body of the loop of [save]: the page-break
    check.  Rebinding [self.form] to the canvas's form leaves no trace. *)
Definition save_page_break (field : value) : M unit :=
  row ← lift (Py.get field "row" (JInt 0));
  break ← reading (fun st => needs_page_break st row);
  if break : bool then
    emit ShowPage;;
    update (fun st => with_page_number (page_number st + 1) st);;
    draw_debug_page_number
  else mret tt.

(** The body of the loop of [save]. *)
Definition save_field (field : value) : M unit :=
  save_page_break field;;
  draw_field field.

(** The state in which the loop of [save] starts. *)
Definition save_init (st : eroPDF) : eroPDF :=
  with_page_number 0 (with_canvas (Some []) st).

(** The fields the loop of [save] visits. *)
Definition field_list (st : eroPDF) : result (list value) :=
  fs ← Py.get (rendered_template st) "fields" (JArr []);
  Py.iter fs.

Definition save : M unit :=
  update save_init;;
  fields ← reading field_list;
  for_each save_field fields;;
  emit ShowPage;;
  emit Save.


(** ** Vocabulary of the statements *)

(** An integer attribute of a dict, with the default the source gives it. *)
Definition int_attr (d : gmap string value) (k : string) (dflt : Z) : option Z :=
  Py.as_int (Py.dict_get d k (JInt dflt)).

(** The field carries both an explicit [x] and an explicit [y]. *)
Definition explicit (d : gmap string value) : Prop :=
  is_Some (d !! "x") ∧ is_Some (d !! "y").

(** What [_draw_field] dispatches on: [field.get("type")]. *)
Definition kind (f : gmap string value) : value := Py.dict_get f "type" JNull.

Definition recognised (t : value) : bool :=
  Py.is_str "text" t || Py.is_str "fillable" t || Py.is_str "checkbox" t
  || Py.is_str "radio" t || Py.is_str "line" t.

(** The row [save] reads from a field of the list. *)
Definition field_row (field : value) : option Z :=
  match field with
  | JObj d => int_attr d "row" 0
  | _ => None
  end.




Definition is_show_page (ev : event) : bool :=
  match ev with
  | ShowPage => true
  | _ => false
  end.

(** The number of [showPage] calls in a trace. *)
Fixpoint page_breaks (tr : list event) : nat :=
  match tr with
  | [] => 0
  | ev :: tr' => (if is_show_page ev then 1 else 0) + page_breaks tr'
  end%nat.

(** What a page break started in state [st] appends to the canvas. *)
Definition page_break_events (st : eroPDF) : list event :=
  [ShowPage; SetFont "Helvetica" (JInt 8);
   DrawRightString ((page_size st).1 - 40) 20 ("Page " +:+ pretty (page_number st + 1 + 1))].

(** The state a page break started in state [st] leaves. *)
Definition after_page_break (st : eroPDF) : eroPDF :=
  with_page_number (page_number st + 1)
    (with_canvas ((λ tr, tr ++ page_break_events st) <$> canvas st) st).

(** A computation that only appends events other than [ShowPage] to the
    canvas and leaves the rest of [self] alone. *)
Definition only_draws {A} (m : M A) : Prop :=
  ∀ st, ∃ evs,
    (m st).2 = with_canvas ((λ tr, tr ++ evs) <$> canvas st) st
    ∧ page_breaks evs = 0%nat.

(** ** Sample documents *)

(** reportlab's [LETTER], in points. *)
Definition LETTER : Z * Z := (612, 792).

Definition dict (l : list (string * value)) : gmap string value := list_to_map l.

(** [self] after [render] on a letter page. *)
Definition rendered (doc : gmap string value) : eroPDF :=
  (render (JObj doc) (new LETTER)).2.

Definition text_at (row col : Z) (s : string) : gmap string value :=
  dict [("type", JStr "text"); ("row", JInt row); ("col", JInt col); ("text", JStr s)].

(** Two rows per page: (792 - 100) // 300 = 2. *)
Definition layout_2 : gmap string value := dict [("row_height", JInt 300)].

(** One row per page: (792 - 100) // 692 = 1. *)
Definition layout_1 : gmap string value := dict [("row_height", JInt 692)].


Definition fields_3 : list value :=
  [JObj (text_at 0 0 "a"); JObj (text_at 1 0 "b"); JObj (text_at 2 1 "c")].

Definition doc_3 : gmap string value :=
  dict [("layout", JObj layout_2); ("fields", JArr fields_3)].

Definition doc_one_row : gmap string value :=
  dict [("layout", JObj layout_1); ("fields", JArr [JObj (text_at 0 0 "a")])].

Definition free_text : gmap string value :=
  dict [("type", JStr "text"); ("x", JInt 50); ("y", JInt 700); ("text", JStr "a")].





Definition image : gmap string value :=
  dict [("type", JStr "image"); ("row", JInt 2)].

Definition doc_image : gmap string value :=
  dict [("layout", JObj layout_2);
        ("fields", JArr [JObj (text_at 0 0 "a"); JObj image; JObj (text_at 1 0 "b")])].





(** ** Vocabulary of the further properties *)

(** Two states hold the same rendered document: they differ at most in the
    page number and the canvas. *)
Definition same_doc (st st' : eroPDF) : Prop :=
  page_size st' = page_size st
  ∧ rendered_template st' = rendered_template st
  ∧ layout st' = layout st
  ∧ rows_per_page st' = rows_per_page st.





(** Samples for the further properties. *)





Definition doc_stray : gmap string value :=
  dict [("layout", JObj layout_2);
        ("fields", JArr [JObj (text_at 0 0 "a"); JStr "stray"; JObj (text_at 1 0 "b")])].



Definition option_a : gmap string value :=
  dict [("col", JInt 0); ("row", JInt 0); ("value", JStr "a")].

Definition option_b : gmap string value :=
  dict [("col", JInt 1); ("row", JInt 0); ("value", JStr "b"); ("selected", JBool true)].

Definition option_mute : gmap string value :=
  dict [("col", JInt 2); ("row", JInt 0)].


Definition radio_mute : gmap string value :=
  dict [("type", JStr "radio"); ("name", JStr "g");
        ("options", JArr [JObj option_a; JObj option_mute; JObj option_b])].

(** ** Sequencing *)

Lemma bind_eq {A B} (m : M A) (k : A → M B) st :
  (m ≫= k) st = match m st with
                | (Ok a, st') => k a st'
                | (Raise e, st') => (Raise e, st')
                end.
Proof. reflexivity. Qed.

Lemma with_canvas_id st : with_canvas (canvas st) st = st.
Proof. by destruct st. Qed.

Lemma for_each_app {A} (body : A → M unit) l1 l2 st :
  for_each body (l1 ++ l2) st
  = match for_each body l1 st with
    | (Ok _, st') => for_each body l2 st'
    | (Raise e, st') => (Raise e, st')
    end.
Proof.
  revert st. induction l1 as [|a l1 IH]; intros st; [reflexivity|].
  simpl. rewrite !bind_eq. destruct (body a st) as [[[]|e] st']; [apply IH|reflexivity].
Qed.

(** An exception in the body ends the loop: the elements after it are not
    visited. *)
Lemma for_each_abort {A} (body : A → M unit) pre a post st st1 e st2 :
  for_each body pre st = (Ok tt, st1) →
  body a st1 = (Raise e, st2) →
  for_each body (pre ++ a :: post) st = (Raise e, st2).
Proof.
  intros Hpre Ha. rewrite for_each_app, Hpre. simpl. by rewrite bind_eq, Ha.
Qed.

(** ** Drawing leaves the page state alone *)

Lemma page_breaks_app tr1 tr2 :
  page_breaks (tr1 ++ tr2) = (page_breaks tr1 + page_breaks tr2)%nat.
Proof. induction tr1 as [|ev tr1 IH]; simpl; [reflexivity|]. rewrite IH. lia. Qed.

Lemma only_draws_reading {A} (f : eroPDF → result A) : only_draws (reading f).
Proof.
  intros st. exists []. split; [|reflexivity]. simpl.
  destruct st as [? ? ? ? ? [tr|]]; simpl; [|reflexivity].
  unfold with_canvas; simpl. by rewrite app_nil_r.
Qed.

Lemma only_draws_ret {A} (a : A) : only_draws (mret a).
Proof. apply (only_draws_reading (λ _, Ok a)). Qed.

Lemma only_draws_bind {A B} (m : M A) (k : A → M B) :
  only_draws m → (∀ a, only_draws (k a)) → only_draws (m ≫= k).
Proof.
  intros Hm Hk st. rewrite bind_eq. destruct (Hm st) as (evs & Hst & Hn).
  destruct (m st) as [[a|e] st']; simpl in Hst; subst st'.
  - destruct (Hk a (with_canvas ((λ tr, tr ++ evs) <$> canvas st) st))
      as (evs' & Hst' & Hn').
    exists (evs ++ evs'). split.
    + rewrite Hst'. destruct st as [? ? ? ? ? [tr|]]; simpl; unfold with_canvas; simpl;
        [by rewrite app_assoc|reflexivity].
    + rewrite page_breaks_app. lia.
  - exists evs. by split.
Qed.

Lemma only_draws_for_each {A} (body : A → M unit) l :
  (∀ a, only_draws (body a)) → only_draws (for_each body l).
Proof.
  intros Hb. induction l as [|a l IH]; simpl.
  - apply only_draws_ret.
  - apply only_draws_bind; [apply Hb|intros _; apply IH].
Qed.

Section Frame.

Context {A : Type} (m : M A) (st : eroPDF).
Hypothesis Hm : only_draws m.

Lemma only_draws_page_number : page_number (m st).2 = page_number st.
Proof. destruct (Hm st) as (evs & -> & _). reflexivity. Qed.

Lemma only_draws_rows_per_page : rows_per_page (m st).2 = rows_per_page st.
Proof. destruct (Hm st) as (evs & -> & _). reflexivity. Qed.

Lemma only_draws_canvas tr :
  canvas st = Some tr →
  ∃ evs, canvas (m st).2 = Some (tr ++ evs) ∧ page_breaks evs = 0%nat.
Proof.
  intros Hc. destruct (Hm st) as (evs & -> & Hn). exists evs.
  simpl. by rewrite Hc.
Qed.

End Frame.

Lemma only_draws_emit ev : is_show_page ev = false → only_draws (emit ev).
Proof.
  intros Hev st. unfold emit. destruct (canvas st) as [tr|] eqn:Hc.
  - exists [ev]. split; [reflexivity|]. simpl. by rewrite Hev.
  - exists []. split; [|reflexivity]. simpl. rewrite <- Hc. by rewrite with_canvas_id.
Qed.

Ltac only_draws :=
  repeat first
    [ apply only_draws_reading
    | apply only_draws_ret
    | apply only_draws_emit; reflexivity
    | apply only_draws_for_each; intros ?
    | apply only_draws_bind; [|intros ?] ].

Lemma only_draws_draw_field field : only_draws (draw_field field).
Proof.
  unfold draw_field. apply only_draws_bind; [apply only_draws_reading|intros t].
  repeat match goal with |- only_draws (if ?b then _ else _) => destruct b end;
    unfold draw_text, draw_fillable, draw_checkbox, draw_radio, draw_radio_option,
      draw_line, lift; only_draws.
Qed.

(** ** Coordinate resolution *)

Section Resolve.

Variable st : eroPDF.
Variable f : gmap string value.

Lemma resolve_coords_explicit x y :
  f !! "x" = Some x → f !! "y" = Some y →
  resolve_coords st (JObj f) = Ok (x, y, Py.dict_get f "width" (JInt 100)).
Proof.
  intros Hx Hy. unfold resolve_coords, Py.contains, Py.getitem, Py.get.
  rewrite Hx, Hy. reflexivity.
Qed.

Lemma resolve_coords_grid :
  ¬ explicit f → resolve_coords st (JObj f) = grid_coords st (JObj f).
Proof.
  intros Hne. unfold resolve_coords, Py.contains. simpl.
  destruct (f !! "x") as [x|] eqn:Hx; simpl; [|reflexivity].
  destruct (f !! "y") as [y|] eqn:Hy; simpl; [|reflexivity].
  exfalso. apply Hne. split; eauto.
Qed.



End Resolve.


(** ** The loop of [save] *)

Lemma save_field_eq field st :
  save_field field st
  = match save_page_break field st with
    | (Ok _, st1) => draw_field field st1
    | (Raise e, st1) => (Raise e, st1)
    end.
Proof. reflexivity. Qed.

Lemma save_page_break_int st f row rpp tr :
  canvas st = Some tr →
  rows_per_page st = JInt rpp →
  int_attr f "row" 0 = Some row →
  save_page_break (JObj f) st
  = (Ok tt, if (page_number st + 1) * rpp <=? row then after_page_break st else st).
Proof.
  unfold int_attr. intros Hc Hrpp Hrow.
  unfold save_page_break, lift, reading, needs_page_break, Py.get. rewrite bind_eq. simpl.
  rewrite bind_eq. simpl. rewrite Hrpp. simpl. unfold Py.ge. rewrite Hrow. simpl.
  destruct ((page_number st + 1) * rpp <=? row); [|reflexivity].
  rewrite bind_eq. unfold emit at 1. rewrite Hc. simpl.
  unfold after_page_break, page_break_events. rewrite Hc.
  destruct st; simpl in *. subst.
  cbv [mbind M_bind update draw_debug_page_number emit reading with_page_number
       with_canvas canvas page_number page_size rendered_template layout
       rows_per_page fmap option_fmap option_map].
  rewrite <- !app_assoc. reflexivity.
Qed.

Lemma save_eq st :
  save st
  = match field_list st with
    | Raise e => (Raise e, save_init st)
    | Ok fields =>
        match for_each save_field fields (save_init st) with
        | (Raise e, st1) => (Raise e, st1)
        | (Ok _, st1) =>
            match canvas st1 with
            | Some tr => (Ok tt, with_canvas (Some (tr ++ [ShowPage; Save])) st1)
            | None => (Raise AttributeError, st1)
            end
        end
    end.
Proof.
  unfold save. rewrite bind_eq. simpl. rewrite bind_eq.
  unfold reading at 1. change (field_list (save_init st)) with (field_list st).
  destruct (field_list st) as [fields|e]; [|reflexivity].
  rewrite bind_eq. destruct (for_each save_field fields (save_init st)) as [[[]|e] st1];
    [|reflexivity].
  rewrite bind_eq. unfold emit. destruct (canvas st1) as [tr|] eqn:Hc; [|reflexivity].
  simpl. rewrite <- app_assoc. reflexivity.
Qed.

Lemma field_list_fields st doc fields :
  rendered_template st = JObj doc →
  doc !! "fields" = Some (JArr fields) →
  field_list st = Ok fields.
Proof.
  intros Ht Hf. unfold field_list, Py.get, Py.dict_get. rewrite Ht. simpl.
  by rewrite Hf.
Qed.

Lemma draw_field_unrecognised f st :
  recognised (kind f) = false →
  draw_field (JObj f) st = (Raise (NotImplementedError (kind f)), st).
Proof.
  unfold recognised, draw_field, kind. intros H.
  repeat (apply orb_false_elim in H; destruct H as [H ?]).
  unfold Py.get, lift, reading. rewrite bind_eq. simpl.
  by repeat match goal with H : Py.is_str _ _ = false |- _ => rewrite H; clear H end.
Qed.




(** ** Counting page breaks *)

Lemma save_field_step st field row rpp tr r st' :
  field_row field = Some row →
  canvas st = Some tr →
  rows_per_page st = JInt rpp →
  save_field field st = (r, st') →
  rows_per_page st' = JInt rpp
  ∧ page_number st'
    = page_number st + (if (page_number st + 1) * rpp <=? row then 1 else 0)
  ∧ ∃ evs, canvas st' = Some (tr ++ evs)
           ∧ page_breaks evs
             = (if (page_number st + 1) * rpp <=? row then 1%nat else 0%nat).
Proof.
  destruct field as [| | | | |f]; try discriminate. simpl.
  intros Hrow Hc Hrpp. rewrite save_field_eq.
  rewrite (save_page_break_int st f row rpp tr Hc Hrpp Hrow).
  set (b := (page_number st + 1) * rpp <=? row).
  set (stb := if b then after_page_break st else st).
  intros Hd.
  assert (Hst' : st' = (draw_field (JObj f) stb).2) by (by rewrite Hd).
  assert (Hcb : canvas stb = Some (tr ++ if b then page_break_events st else [])).
  { unfold stb. destruct b; simpl; rewrite Hc; simpl; [reflexivity|by rewrite app_nil_r]. }
  destruct (only_draws_canvas _ stb (only_draws_draw_field (JObj f)) _ Hcb)
    as (evs & Hcan & Hn).
  subst st'. split; [|split].
  - rewrite only_draws_rows_per_page by apply only_draws_draw_field.
    unfold stb. by destruct b.
  - rewrite only_draws_page_number by apply only_draws_draw_field.
    unfold stb. destruct b; simpl; lia.
  - exists ((if b then page_break_events st else []) ++ evs). split.
    + by rewrite Hcan, app_assoc.
    + rewrite page_breaks_app, Hn. by destruct b.
Qed.

Lemma save_loop_pages rpp fields :
  1 <= rpp →
  ∀ rows st st1 tr,
    Forall2 (λ f r, field_row f = Some r) fields rows →
    Forall (λ r, r < 2 * rpp) rows →
    canvas st = Some tr →
    rows_per_page st = JInt rpp →
    page_number st = 0 ∨ page_number st = 1 →
    for_each save_field fields st = (Ok tt, st1) →
    ∃ evs, canvas st1 = Some (tr ++ evs)
           ∧ Z.of_nat (page_breaks evs) = page_number st1 - page_number st
           ∧ page_number st1
             = (if existsb (λ r, rpp <=? r) rows then 1 else page_number st).
Proof.
  intros Hpos. induction fields as [|f fields IH]; intros rows st st1 tr Hrows Hlt Hc Hrpp Hpn.
  - apply Forall2_nil_inv_l in Hrows as ->. simpl. intros [= <-].
    exists []. rewrite app_nil_r. simpl. repeat split; [assumption|lia].
  - apply Forall2_cons_inv_l in Hrows as (r & rows' & Hr & Hrows & ->).
    apply Forall_cons in Hlt as [Hlt1 Hlt].
    simpl. rewrite bind_eq.
    destruct (save_field f st) as [[[]|e] st2] eqn:Hstep; [|discriminate].
    destruct (save_field_step _ _ _ _ _ _ _ Hr Hc Hrpp Hstep) as (Hrpp2 & Hpn2 & evs & Hc2 & Hn).
    intros Hloop.
    assert (Hpn2' : page_number st2 = 0 ∨ page_number st2 = 1).
    { destruct (Z.leb_spec ((page_number st + 1) * rpp) r); destruct Hpn; nia. }
    destruct (IH _ _ _ _ Hrows Hlt Hc2 Hrpp2 Hpn2' Hloop) as (evs' & Hc1 & Hn' & Hpn1).
    exists (evs ++ evs'). split; [by rewrite Hc1, app_assoc|].
    rewrite page_breaks_app, Nat2Z.inj_add, Hn', Hn, Hpn1, Hpn2.
    destruct (existsb _ rows') eqn:Hex;
      destruct (Z.leb_spec ((page_number st + 1) * rpp) r);
      destruct (Z.leb_spec rpp r); simpl; destruct Hpn as [Hp|Hp]; rewrite ?Hp in *;
      split; try lia; try nia.
Qed.

(** ** The model runs *)

Example doc_3_renders :
  rows_per_page (rendered doc_3) = JInt 2
  ∧ canvas (save (rendered doc_3)).2
    = Some [SetFont "Helvetica" (JInt 10); DrawString (JInt 50) (JInt 742) (JStr "a");
            SetFont "Helvetica" (JInt 10); DrawString (JInt 50) (JInt 442) (JStr "b");
            ShowPage; SetFont "Helvetica" (JInt 8); DrawRightString 572 20 "Page 2";
            SetFont "Helvetica" (JInt 10); DrawString (JInt 170) (JInt 742) (JStr "c");
            ShowPage; Save].
Proof. split; vm_compute; reflexivity. Qed.

(** * Properties of the engine *)

(** ** Coordinate resolution *)




(** C4: a field or radio option that carries both [x] and [y] resolves to
    exactly [(x, y, width)], [width] defaulting to 100, under every layout,
    page size, [rows_per_page] and page number, and whatever its [row],
    [col] and [col_span] are. *)
Theorem explicit_position_verbatim (f : gmap string value) (x y : value) :
  f !! "x" = Some x → f !! "y" = Some y →
  (∀ st, resolve_coords st (JObj f) = Ok (x, y, Py.dict_get f "width" (JInt 100)))
  ∧ (∀ st row col col_span,
       resolve_coords st
         (JObj (<["row" := row]> (<["col" := col]> (<["col_span" := col_span]> f))))
       = Ok (x, y, Py.dict_get f "width" (JInt 100))).
Proof.
  intros Hx Hy. split.
  - intros st. by apply resolve_coords_explicit.
  - intros st row col col_span.
    rewrite (resolve_coords_explicit st _ x y) by (by rewrite !lookup_insert_ne).
    unfold Py.dict_get. by rewrite !lookup_insert_ne.
Qed.

Lemma explicit_position_verbatim_witness :
  (∀ st, resolve_coords st (JObj free_text) = Ok (JInt 50, JInt 700, JInt 100))
  ∧ (∀ st row col col_span,
       resolve_coords st
         (JObj (<["row" := row]> (<["col" := col]> (<["col_span" := col_span]> free_text))))
       = Ok (JInt 50, JInt 700, JInt 100)).
Proof.
  refine (explicit_position_verbatim free_text (JInt 50) (JInt 700) _ _);
    vm_compute; reflexivity.
Defined.



(** ** Pagination *)



(** C6: a [save] that completes has run the loop over every field and then
    made exactly two more calls, the trailing [showPage] and [save]; with
    an empty field list it always completes, and the document is that one
    page. *)
Theorem save_trailing_show_page :
  (∀ st st', save st = (Ok tt, st') →
     ∃ fields st1 tr,
       field_list st = Ok fields
       ∧ for_each save_field fields (save_init st) = (Ok tt, st1)
       ∧ canvas st1 = Some tr
       ∧ st' = with_canvas (Some (tr ++ [ShowPage; Save])) st1)
  ∧ (∀ st, field_list st = Ok [] →
       save st = (Ok tt, with_canvas (Some [ShowPage; Save]) (save_init st))).
Proof.
  split.
  - intros st st'. rewrite save_eq.
    destruct (field_list st) as [fields|e]; [|discriminate].
    destruct (for_each save_field fields (save_init st)) as [[[]|e] st1] eqn:Hloop;
      [|discriminate].
    destruct (canvas st1) as [tr|] eqn:Hc; [|discriminate].
    intros [= <-]. exists fields, st1, tr. auto.
  - intros st Hl. by rewrite save_eq, Hl.
Qed.

Lemma save_trailing_show_page_witness :
  (∃ fields st1 tr,
     field_list (rendered doc_3) = Ok fields
     ∧ for_each save_field fields (save_init (rendered doc_3)) = (Ok tt, st1)
     ∧ canvas st1 = Some tr
     ∧ (save (rendered doc_3)).2 = with_canvas (Some (tr ++ [ShowPage; Save])) st1)
  ∧ canvas (save (rendered ∅)).2 = Some [ShowPage; Save].
Proof.
  split.
  - refine (proj1 save_trailing_show_page (rendered doc_3) (save (rendered doc_3)).2 _).
    vm_compute; reflexivity.
  - rewrite (proj2 save_trailing_show_page (rendered ∅)); vm_compute; reflexivity.
Defined.

(** ** Dispatch *)

(** C5: a pass over a list with a field whose kind is none of text,
    fillable, checkbox, radio, line raises.  When the fields before it are
    drawn without error, it raises at that field: [NotImplementedError] out
    of [_draw_field] if the page-break check of the field passed, the
    exception of that check otherwise.  The pass ends in the state the
    page-break check left: neither that field nor any field after it is
    drawn.  Each of the five kinds goes to its own drawing routine. *)
Theorem unknown_kind_aborts (st : eroPDF) (doc f : gmap string value)
    (pre post : list value) :
  rendered_template st = JObj doc →
  doc !! "fields" = Some (JArr (pre ++ JObj f :: post)) →
  recognised (kind f) = false →
  (∃ e st', save st = (Raise e, st'))
  ∧ (∀ st1, for_each save_field pre (save_init st) = (Ok tt, st1) →
       ∃ e, save st = (Raise e, (save_page_break (JObj f) st1).2)
            ∧ ((save_page_break (JObj f) st1).1 = Ok tt
               ∧ e = NotImplementedError (kind f)
               ∨ (save_page_break (JObj f) st1).1 = Raise e))
  ∧ (∀ g s, kind g = JStr "text" → draw_field (JObj g) s = draw_text (JObj g) s)
  ∧ (∀ g s, kind g = JStr "fillable" → draw_field (JObj g) s = draw_fillable (JObj g) s)
  ∧ (∀ g s, kind g = JStr "checkbox" → draw_field (JObj g) s = draw_checkbox (JObj g) s)
  ∧ (∀ g s, kind g = JStr "radio" → draw_field (JObj g) s = draw_radio (JObj g) s)
  ∧ (∀ g s, kind g = JStr "line" → draw_field (JObj g) s = draw_line (JObj g) s).
Proof.
  intros Ht Hf Hk.
  assert (Hat : ∀ st1, for_each save_field pre (save_init st) = (Ok tt, st1) →
       ∃ e, save st = (Raise e, (save_page_break (JObj f) st1).2)
            ∧ ((save_page_break (JObj f) st1).1 = Ok tt
               ∧ e = NotImplementedError (kind f)
               ∨ (save_page_break (JObj f) st1).1 = Raise e)).
  { intros st1 Hpre. rewrite save_eq, (field_list_fields _ _ _ Ht Hf).
    destruct (save_page_break (JObj f) st1) as [[[]|e] st2] eqn:Hpb; simpl.
    - exists (NotImplementedError (kind f)). split; [|by left].
      rewrite (for_each_abort _ pre (JObj f) post _ st1 (NotImplementedError (kind f)) st2 Hpre);
        [reflexivity|].
      rewrite save_field_eq, Hpb. by apply draw_field_unrecognised.
    - exists e. split; [|by right].
      rewrite (for_each_abort _ pre (JObj f) post _ st1 e st2 Hpre); [reflexivity|].
      by rewrite save_field_eq, Hpb. }
  split; [|split; [exact Hat|]].
  - destruct (for_each save_field pre (save_init st)) as [[[]|e] st1] eqn:Hpre.
    + destruct (Hat st1 eq_refl) as (e & He & _). eauto.
    + rewrite save_eq, (field_list_fields _ _ _ Ht Hf), for_each_app, Hpre. eauto.
  - unfold kind, draw_field, Py.get, lift, reading.
    repeat split; intros g s Hg; rewrite bind_eq; simpl; rewrite Hg; reflexivity.
Qed.

(** An image between two texts: the first text and the page break of the
    image are on the canvas, the second text is not. *)
Lemma unknown_kind_aborts_witness :
  (∃ e, save (rendered doc_image)
        = (Raise e,
           (save_page_break (JObj image)
              (for_each save_field [JObj (text_at 0 0 "a")]
                 (save_init (rendered doc_image))).2).2)
        ∧ canvas (save (rendered doc_image)).2
          = Some [SetFont "Helvetica" (JInt 10);
                  DrawString (JInt 50) (JInt 742) (JStr "a");
                  ShowPage; SetFont "Helvetica" (JInt 8);
                  DrawRightString 572 20 "Page 2"])
  ∧ draw_field (JObj (text_at 0 0 "a")) (save_init (rendered doc_image))
    = draw_text (JObj (text_at 0 0 "a")) (save_init (rendered doc_image)).
Proof.
  assert (Hdoc : rendered_template (rendered doc_image) = JObj doc_image)
    by (vm_compute; reflexivity).
  assert (Hfields : doc_image !! "fields"
                    = Some (JArr ([JObj (text_at 0 0 "a")]
                                  ++ JObj image :: [JObj (text_at 1 0 "b")])))
    by (vm_compute; reflexivity).
  assert (Hpre : for_each save_field [JObj (text_at 0 0 "a")]
                   (save_init (rendered doc_image))
                 = (Ok tt, (for_each save_field [JObj (text_at 0 0 "a")]
                              (save_init (rendered doc_image))).2))
    by (vm_compute; reflexivity).
  assert (Hkind : recognised (kind image) = false) by (vm_compute; reflexivity).
  destruct (unknown_kind_aborts _ _ _ _ _ Hdoc Hfields Hkind) as (_ & Hat & Htext & _).
  destruct (Hat _ Hpre) as (e & Hsave & _).
  split.
  - exists e. split; [exact Hsave|]. rewrite Hsave. vm_compute. reflexivity.
  - apply Htext. vm_compute. reflexivity.
Defined.

(** C8 does not hold with one row per page: the rows then span
    [2 * 1 - 1 = 1] row, row 0, and the pass has no page break before the
    trailing one. *)
Lemma one_row_per_page_no_break :
  rows_per_page (rendered doc_one_row) = JInt 1
  ∧ field_list (rendered doc_one_row) = Ok [JObj (text_at 0 0 "a")]
  ∧ Forall2 (λ f r, field_row f = Some r) [JObj (text_at 0 0 "a")] [0]
  ∧ Sorted Z.le [0]
  ∧ Forall (λ r, 0 <= r <= 2 * 1 - 2) [0]
  ∧ 0 ∈ [0] ∧ 2 * 1 - 2 ∈ [0]
  ∧ ∃ st' tr,
      save (rendered doc_one_row) = (Ok tt, st')
      ∧ canvas st' = Some (tr ++ [ShowPage; Save])
      ∧ page_breaks tr = 0%nat.
Proof.
  split; [vm_compute; reflexivity|]. split; [vm_compute; reflexivity|].
  split; [repeat constructor|]. split; [repeat constructor|].
  split; [repeat constructor; lia|]. split; [constructor|]. split; [constructor|].
  eexists.
  exists [SetFont "Helvetica" (JInt 10); DrawString (JInt 50) (JInt 742) (JStr "a")].
  split; [vm_compute; reflexivity|]. split; reflexivity.
Qed.

(** C8: with at least two rows per page, a pass that completes over fields
    in non-decreasing row order whose integer rows lie in
    [0 .. 2 * rows_per_page - 2] and include both ends has exactly one
    page break before the trailing one, and ends on page 1. *)
Theorem one_page_break_over_two_pages (st st' : eroPDF) (doc : gmap string value)
    (fields : list value) (rows : list Z) (rpp : Z) :
  rendered_template st = JObj doc →
  doc !! "fields" = Some (JArr fields) →
  rows_per_page st = JInt rpp → 2 <= rpp →
  Forall2 (λ f r, field_row f = Some r) fields rows →
  Sorted Z.le rows →
  Forall (λ r, 0 <= r <= 2 * rpp - 2) rows →
  0 ∈ rows → 2 * rpp - 2 ∈ rows →
  save st = (Ok tt, st') →
  ∃ tr, canvas st' = Some (tr ++ [ShowPage; Save])
        ∧ page_breaks tr = 1%nat
        ∧ page_number st' = 1.
Proof.
  intros Ht Hf Hrpp Hge Hrows _ Hrange _ Hlast.
  rewrite save_eq, (field_list_fields _ _ _ Ht Hf).
  destruct (for_each save_field fields (save_init st)) as [[[]|e] st1] eqn:Hloop;
    [|discriminate].
  destruct (save_loop_pages rpp fields ltac:(lia) rows (save_init st) st1 []) as
    (evs & Hc & Hn & Hpn); try assumption; try reflexivity; [|by left|].
  { eapply Forall_impl; [exact Hrange|]. simpl. intros; lia. }
  assert (Hex : existsb (λ r, rpp <=? r) rows = true).
  { apply existsb_exists. exists (2 * rpp - 2). split.
    - by apply list_elem_of_In.
    - apply Z.leb_le. lia. }
  rewrite Hex in Hpn. rewrite Hpn in Hn. simpl in Hn, Hc.
  rewrite Hc. intros [= <-]. exists evs. simpl. repeat split; [lia|assumption].
Qed.

(** Rows 0, 1, 2 with two rows per page. *)
Lemma one_page_break_over_two_pages_witness :
  ∃ tr, canvas (save (rendered doc_3)).2 = Some (tr ++ [ShowPage; Save])
        ∧ page_breaks tr = 1%nat
        ∧ page_number (save (rendered doc_3)).2 = 1.
Proof.
  refine (one_page_break_over_two_pages (rendered doc_3) (save (rendered doc_3)).2
            doc_3 fields_3 [0; 1; 2] 2 _ _ _ _ _ _ _ _ _ _);
    first [ lia
          | vm_compute; reflexivity
          | repeat constructor; lia
          | repeat constructor; vm_compute; discriminate
          | repeat constructor ].
Defined.

(** ** Errors *)











(** * Further properties *)

(** ** What a pass keeps *)

Lemma same_doc_refl st : same_doc st st.
Proof. by repeat split. Qed.

Lemma same_doc_trans st1 st2 st3 :
  same_doc st1 st2 → same_doc st2 st3 → same_doc st1 st3.
Proof.
  intros (H1 & H2 & H3 & H4) (H1' & H2' & H3' & H4').
  repeat split; congruence.
Qed.

Lemma only_draws_same_doc {A} (m : M A) st : only_draws m → same_doc st (m st).2.
Proof. intros Hm. destruct (Hm st) as (evs & -> & _). by repeat split. Qed.

(** The page-break check changes nothing or makes exactly one page break. *)
Lemma save_page_break_cases field st :
  (save_page_break field st).2 = st
  ∨ (is_Some (canvas st) ∧ save_page_break field st = (Ok tt, after_page_break st)).
Proof.
  unfold save_page_break, lift, reading. rewrite bind_eq.
  destruct (Py.get field "row" (JInt 0)) as [row|e]; [|by left].
  rewrite bind_eq. destruct (needs_page_break st row) as [[|]|e]; [|by left..].
  rewrite bind_eq. unfold emit at 1. destruct (canvas st) as [tr|] eqn:Hc; [|by left].
  right. split; [done|].
  unfold after_page_break, page_break_events. rewrite Hc.
  destruct st; simpl in *. subst.
  cbv [mbind M_bind update draw_debug_page_number emit reading with_page_number
       with_canvas canvas page_number page_size rendered_template layout
       rows_per_page fmap option_fmap option_map].
  rewrite <- !app_assoc. reflexivity.
Qed.

(** One turn of the loop of [save], whatever the field is. *)
Lemma save_field_turn field st tr :
  canvas st = Some tr →
  ∃ evs (b : bool),
    canvas (save_field field st).2 = Some (tr ++ evs)
    ∧ page_breaks evs = (if b then 1%nat else 0%nat)
    ∧ page_number (save_field field st).2 = page_number st + (if b then 1 else 0)
    ∧ same_doc st (save_field field st).2.
Proof.
  intros Hc. rewrite save_field_eq.
  destruct (save_page_break_cases field st) as [Hst|[_ Hpb]].
  - destruct (save_page_break field st) as [[[]|e] st1]; simpl in Hst; subst st1.
    + destruct (only_draws_canvas _ st (only_draws_draw_field field) _ Hc)
        as (evs & Hcan & Hn).
      exists evs, false. split; [exact Hcan|]. split; [exact Hn|]. split.
      * rewrite only_draws_page_number by apply only_draws_draw_field. lia.
      * apply only_draws_same_doc, only_draws_draw_field.
    + exists [], false. simpl. rewrite app_nil_r.
      repeat split; [assumption|lia].
  - rewrite Hpb.
    assert (Hcb : canvas (after_page_break st) = Some (tr ++ page_break_events st))
      by (simpl; by rewrite Hc).
    destruct (only_draws_canvas _ _ (only_draws_draw_field field) _ Hcb)
      as (evs & Hcan & Hn).
    exists (page_break_events st ++ evs), true. split; [by rewrite Hcan, app_assoc|].
    split; [by rewrite page_breaks_app, Hn|]. split.
    + by rewrite only_draws_page_number by apply only_draws_draw_field.
    + eapply same_doc_trans; [|apply only_draws_same_doc, only_draws_draw_field].
      by repeat split.
Qed.

(** The loop of [save]: the page number counts the page breaks, and there is
    at most one for each field. *)
Lemma save_loop_turns fields :
  ∀ st tr,
    canvas st = Some tr →
    ∃ evs,
      canvas (for_each save_field fields st).2 = Some (tr ++ evs)
      ∧ Z.of_nat (page_breaks evs)
        = page_number (for_each save_field fields st).2 - page_number st
      ∧ page_number (for_each save_field fields st).2 - page_number st
        <= Z.of_nat (length fields)
      ∧ same_doc st (for_each save_field fields st).2.
Proof.
  induction fields as [|f fields IH]; intros st tr Hc.
  - exists []. simpl. rewrite app_nil_r. repeat split; [assumption|lia..].
  - destruct (save_field_turn f st tr Hc) as (evs & b & Hc1 & Hn1 & Hp1 & Hd1).
    simpl for_each. rewrite bind_eq.
    destruct (save_field f st) as [[[]|e] st1]; simpl in Hc1, Hp1, Hd1.
    + destruct (IH st1 _ Hc1) as (evs' & Hc2 & Hn2 & Hp2 & Hd2).
      exists (evs ++ evs'). split; [by rewrite Hc2, app_assoc|].
      rewrite page_breaks_app, Nat2Z.inj_add, Hn1, Hn2.
      split; [destruct b; simpl; lia|].
      split; [simpl length; destruct b; lia|].
      eapply same_doc_trans; eassumption.
    + exists evs. simpl. split; [assumption|].
      rewrite Hn1, Hp1. destruct b; repeat split; try lia; apply Hd1.
Qed.

Lemma save_init_same_doc st st' : same_doc st st' → save_init st' = save_init st.
Proof.
  intros (H1 & H2 & H3 & H4). unfold save_init, with_page_number, with_canvas. simpl.
  by rewrite H1, H2, H3, H4.
Qed.

Lemma save_same_doc st : same_doc st (save st).2.
Proof.
  rewrite save_eq. destruct (field_list st) as [fields|e].
  - destruct (save_loop_turns fields (save_init st) [] eq_refl) as (evs & Hc & _ & _ & Hd).
    destruct (for_each save_field fields (save_init st)) as [[[]|e] st1]; simpl in *.
    + rewrite Hc. simpl. apply Hd.
    + apply Hd.
  - by repeat split.
Qed.

(** ** Pagination *)



(** X2: saving again gives the same result: [save] starts from a new
    canvas and page 0 and leaves the rendered document as it is. *)
Theorem save_again_same (st : eroPDF) : save (save st).2 = save st.
Proof.
  unfold save at 1 3. rewrite !bind_eq. unfold update.
  by rewrite (save_init_same_doc st (save st).2 (save_same_doc st)).
Qed.

(** X3: [save] on an object whose rendered template is not a dict, as
    before any [render], raises [AttributeError] on a new, empty canvas. *)
Theorem save_without_template (st : eroPDF) :
  (∀ doc, rendered_template st ≠ JObj doc) →
  save st = (Raise AttributeError, save_init st).
Proof.
  intros Hnd. rewrite save_eq. unfold field_list, Py.get.
  destruct (rendered_template st); try reflexivity. by destruct (Hnd d).
Qed.

Lemma save_without_template_witness :
  save (new LETTER) = (Raise AttributeError, save_init (new LETTER)).
Proof. apply save_without_template. intros doc. discriminate. Defined.

(** X4: an entry of the field list that is not a dict ends the pass with
    [AttributeError] when it is reached: there is no page break for it and
    nothing after it is drawn. *)
Theorem non_dict_field_aborts (st st1 : eroPDF) (doc : gmap string value)
    (pre post : list value) (field : value) :
  rendered_template st = JObj doc →
  doc !! "fields" = Some (JArr (pre ++ field :: post)) →
  (∀ d, field ≠ JObj d) →
  for_each save_field pre (save_init st) = (Ok tt, st1) →
  save st = (Raise AttributeError, st1).
Proof.
  intros Ht Hf Hnd Hpre. rewrite save_eq, (field_list_fields _ _ _ Ht Hf).
  rewrite (for_each_abort _ pre field post _ st1 AttributeError st1 Hpre); [reflexivity|].
  destruct field; try reflexivity. by destruct (Hnd d).
Qed.






(** ** [render] *)

(** X7: [render] on a document that is not a dict, or whose [layout] is not
    a dict, raises [AttributeError]; what it had stored before the failing
    line stays stored, and [rows_per_page] is not touched. *)
Theorem render_bad_shape (st : eroPDF) :
  (∀ doc, (∀ d, doc ≠ JObj d) →
     render doc st = (Raise AttributeError, with_rendered_template doc st))
  ∧ (∀ doc lay, Py.dict_get doc "layout" (JObj ∅) = lay → (∀ d, lay ≠ JObj d) →
       render (JObj doc) st
       = (Raise AttributeError, with_layout lay (with_rendered_template (JObj doc) st))).
Proof.
  split.
  - intros doc Hnd. unfold render, update, lift, reading. rewrite bind_eq. simpl.
    rewrite bind_eq. destruct doc; try reflexivity. by destruct (Hnd d).
  - intros doc lay Hlay Hnd. unfold render, update, lift, reading, Py.get.
    rewrite bind_eq. simpl. rewrite bind_eq. simpl. rewrite Hlay.
    rewrite bind_eq. simpl. rewrite bind_eq. simpl. rewrite bind_eq.
    destruct lay; try reflexivity. by destruct (Hnd d).
Qed.




(** ** Coordinates *)

(** X11: the [and] of [_resolve_coords]: a field with only one of [x] and
    [y] is placed on the grid, and that one coordinate is ignored. *)
Theorem lone_coordinate_ignored (st : eroPDF) (f : gmap string value) :
  f !! "x" = None ∨ f !! "y" = None →
  resolve_coords st (JObj f) = resolve_coords st (JObj (delete "x" (delete "y" f))).
Proof.
  intros Hlone.
  rewrite !resolve_coords_grid.
  - unfold grid_coords, Py.get, Py.dict_get. simpl.
    by rewrite !lookup_delete_ne.
  - intros [[? Hx] _]. by rewrite lookup_delete_eq in Hx.
  - intros [[? Hx] [? Hy]]. destruct Hlone; congruence.
Qed.

Lemma lone_coordinate_ignored_witness :
  resolve_coords (rendered doc_3) (JObj (<["x" := JInt 999]> (text_at 1 1 "b")))
  = Ok (JInt 170, JInt 442, JInt 120).
Proof.
  rewrite (lone_coordinate_ignored (rendered doc_3) (<["x" := JInt 999]> (text_at 1 1 "b")));
    [|right]; vm_compute; reflexivity.
Defined.



(** ** Drawing *)



(** X14: a line without [col1] or [row1] raises [KeyError] for the first
    one missing, and a line without [col2] or [row2] raises as well; in
    each case nothing is drawn. *)
Theorem line_missing_endpoint (st : eroPDF) (f : gmap string value) :
  (f !! "col1" = None → draw_line (JObj f) st = (Raise (KeyError "col1"), st))
  ∧ (is_Some (f !! "col1") → f !! "row1" = None →
       draw_line (JObj f) st = (Raise (KeyError "row1"), st))
  ∧ (f !! "col2" = None ∨ f !! "row2" = None →
       ∃ e, draw_line (JObj f) st = (Raise e, st)).
Proof.
  unfold draw_line, lift, reading, Py.getitem. split; [|split].
  - intros H. by rewrite bind_eq, H.
  - intros [c1 H1] H. rewrite bind_eq, H1. simpl. by rewrite bind_eq, H.
  - intros H. rewrite bind_eq. destruct (f !! "col1") as [c1|]; [|eauto]. simpl.
    rewrite bind_eq. destruct (f !! "row1") as [r1|]; [|eauto]. simpl.
    rewrite bind_eq. destruct (resolve_coords st _) as [p1|e]; [|eauto].
    rewrite bind_eq. destruct (f !! "col2") as [c2|]; [|eauto]. simpl.
    rewrite bind_eq. destruct (f !! "row2") as [r2|]; [|eauto].
    destruct H; discriminate.
Qed.

Lemma line_missing_endpoint_witness :
  draw_line (JObj (dict [("type", JStr "line"); ("col1", JInt 0); ("row1", JInt 0);
                         ("col2", JInt 2)])) (save_init (rendered doc_3))
  = (Raise (KeyError "row2"), save_init (rendered doc_3)).
Proof.
  destruct (proj2 (proj2 (line_missing_endpoint (save_init (rendered doc_3))
              (dict [("type", JStr "line"); ("col1", JInt 0); ("row1", JInt 0);
                     ("col2", JInt 2)]))))
    as [e He]; [right; vm_compute; reflexivity|].
  vm_compute. reflexivity.
Defined.








(** X18: drawing a field, whatever the field is and whether the drawing
    returns or raises, only appends calls to the canvas: it never starts a
    page, and it leaves the page number and the rendered document alone. *)
Theorem drawing_keeps_page_state (field : value) (st : eroPDF) (tr : list event) :
  canvas st = Some tr →
  ∃ evs,
    canvas (draw_field field st).2 = Some (tr ++ evs)
    ∧ page_breaks evs = 0%nat
    ∧ page_number (draw_field field st).2 = page_number st
    ∧ same_doc st (draw_field field st).2.
Proof.
  intros Hc.
  destruct (only_draws_canvas _ st (only_draws_draw_field field) _ Hc) as (evs & Hcan & Hn).
  exists evs. split; [exact Hcan|]. split; [exact Hn|]. split.
  - apply only_draws_page_number, only_draws_draw_field.
  - apply only_draws_same_doc, only_draws_draw_field.
Qed.

(** A group whose second option has no value: one control drawn, then the
    error, and still page 0 of the same document. *)
Lemma drawing_keeps_page_state_witness :
  ∃ evs,
    canvas (draw_field (JObj radio_mute) (save_init (rendered doc_3))).2 = Some ([] ++ evs)
    ∧ page_breaks evs = 0%nat
    ∧ page_number (draw_field (JObj radio_mute) (save_init (rendered doc_3))).2 = 0
    ∧ same_doc (save_init (rendered doc_3))
        (draw_field (JObj radio_mute) (save_init (rendered doc_3))).2.
Proof.
  exact (drawing_keeps_page_state (JObj radio_mute) (save_init (rendered doc_3)) []
           eq_refl).
Defined.

(** ** The further properties on sample documents *)

(** A string among the fields: the text before it is drawn, the pass ends
    there. *)
Lemma non_dict_field_aborts_witness :
  save (rendered doc_stray)
  = (Raise AttributeError,
     with_canvas
       (Some [SetFont "Helvetica" (JInt 10); DrawString (JInt 50) (JInt 742) (JStr "a")])
       (save_init (rendered doc_stray))).
Proof.
  refine (non_dict_field_aborts (rendered doc_stray) _ doc_stray
            [JObj (text_at 0 0 "a")] [JObj (text_at 1 0 "b")] (JStr "stray") _ _ _ _);
    first [ intros d; discriminate | vm_compute; reflexivity ].
Defined.



Lemma render_bad_shape_witness :
  render (JArr []) (new LETTER) = (Raise AttributeError, with_rendered_template (JArr []) (new LETTER))
  ∧ (render (JObj (dict [("layout", JInt 3)])) (new LETTER)).1 = Raise AttributeError.
Proof.
  destruct (render_bad_shape (new LETTER)) as [Hdoc Hlay]. split.
  - apply Hdoc. intros d. discriminate.
  - rewrite (Hlay (dict [("layout", JInt 3)]) (JInt 3));
      first [ reflexivity | intros d; discriminate | vm_compute; reflexivity ].
Defined.





